(** * The signed-request client of [lib/make-request.js]

    A shallow embedding of the request signer and of the transaction
    manager: the canonical request and the [Authorization] header, the
    payload dispatch of [makeRequest], the event handlers that
    [sendRequest] attaches to the request and to the response, and the
    status-code gate of [done].

    Conventions of the model.
    - A JavaScript string is a [string]: one character per code unit, so
      the model covers the strings whose code units are below 256.  The
      ['ascii'] encoding of [Buffer] keeps one byte per code unit, the
      ['utf-8'] encoding spends two bytes on a code unit above 127.
    - A JavaScript number is the integer it denotes ([Z]); the code only
      tests numbers for truthiness and prints them.
    - Library functions (HMAC, base64, [JSON.stringify], [JSON.parse]),
      the clock, the process environment and the form-data encoder are
      parameters of the model.
    - What a call does to the outside world is a list of [effect]s, in the
      order in which the code performs them. *)

From Stdlib Require Import ZArith List String Ascii Bool Lia DecimalString.
From Stdlib.Strings Require Import Byte.
Import ListNotations.

Local Open Scope string_scope.
Local Open Scope Z_scope.

Set Warnings "-register-all".

(** ** JavaScript values *)

Inductive value : Type :=
| VUndefined
| VNull
| VBool (b : bool)
| VNum (n : Z)
| VStr (s : string)
| VArr (elems : list value)
| VObj (fields : list (string * value)).

(** An [Error] object: its message, the [code] that Node puts on socket
    errors, and the [apiError] property that the client attaches. *)
Record jserror : Type := mkError {
  message : string;
  code : option string;
  apiError : option value
}.

(** [new Error(msg)] *)
Definition Error (msg : string) : jserror :=
  {| message := msg; code := None; apiError := None |}.

(** A computation that may throw a [TypeError]. *)
Inductive completion (A : Type) : Type :=
| Normal (a : A)
| Throws.
Arguments Normal {A} a.
Arguments Throws {A}.

(** The double quote, which the source writes inside its literals. *)
Definition dq : string := String (ascii_of_nat 34) EmptyString.

(** [ToBoolean]: what [if (v)], [v && ...] and [v ? ... : ...] test. *)
Definition truthy (v : value) : bool :=
  match v with
  | VUndefined | VNull => false
  | VBool b => b
  | VNum n => negb (n =? 0)
  | VStr s => negb (s =? "")%string
  | VArr _ | VObj _ => true
  end.

Definition nullish (v : value) : bool :=
  match v with
  | VUndefined | VNull => true
  | _ => false
  end.

(** Own-property lookup in an object literal. *)
Fixpoint assoc (k : string) (fields : list (string * value)) : option value :=
  match fields with
  | [] => None
  | (k', v) :: rest => if (k =? k')%string then Some v else assoc k rest
  end.

(** [v.k] for a receiver [v] that is neither [undefined] nor [null]
    (reading a property of those throws, which the callers of [member]
    test with [nullish]); the keys the client reads ([data], [alertBody],
    [errors], [code]) exist on plain objects only. *)
Definition member (v : value) (k : string) : value :=
  match v with
  | VObj fields => match assoc k fields with Some x => x | None => VUndefined end
  | _ => VUndefined
  end.

(** [String(n)] for an integer-valued number. *)
Definition String_number (n : Z) : string :=
  NilZero.string_of_int (Z.to_int n).

Fixpoint join (sep : string) (parts : list string) : string :=
  match parts with
  | [] => ""
  | [p] => p
  | p :: rest => p ++ sep ++ join sep rest
  end.

(** [ToString], the coercion that [+] applies to a non-string operand. *)
Fixpoint ToString (v : value) : string :=
  match v with
  | VUndefined => "undefined"
  | VNull => "null"
  | VBool true => "true"
  | VBool false => "false"
  | VNum n => String_number n
  | VStr s => s
  | VArr elems =>
      join "," (map (fun e => if nullish e then "" else ToString e) elems)
  | VObj _ => "[object Object]"
  end.

(** [ToString] of an optional configuration field. *)
Definition ToString_opt (o : option Z) : string :=
  match o with
  | Some n => String_number n
  | None => "undefined"
  end.

(** [s[0]] *)
Definition first_char (s : string) : option ascii := String.get 0 s.

(** ** Buffers *)

(** [Buffer(s, 'ascii')]: one byte per code unit. *)
Definition ascii_bytes (s : string) : list byte := list_byte_of_string s.

Definition byte_of_N (n : N) : byte :=
  match Byte.of_N n with
  | Some b => b
  | None => x00
  end.

Definition utf8_char (c : ascii) : list byte :=
  let n := N_of_ascii c in
  if (n <? 128)%N then [byte_of_ascii c]
  else [byte_of_N (192 + n / 64); byte_of_N (128 + n mod 64)].

(** [Buffer.from(s, 'utf-8')], also what [req.write(s)] sends. *)
Fixpoint utf8_bytes (s : string) : list byte :=
  match s with
  | EmptyString => []
  | String c rest => utf8_char c ++ utf8_bytes rest
  end.

(** [Buffer.byteLength(s)] *)
Definition byteLength (s : string) : Z := Z.of_nat (List.length (utf8_bytes s)).

(** ** Configuration, payloads, requests and effects *)

Record config : Type := {
  apiId : string;
  apiSecret : string;
  host : option string;
  port : option Z;
  timeout : option Z
}.

Definition defaultHost : string := "news-api.apple.com".

(** What the form-data encoder hands back on success. *)
Record encoded : Type := {
  buffer : list byte;
  headers : list (string * value)
}.

(** The [post] argument of [sendRequest]: [null], the structured payload
    itself (the alert route), or the encoder's output. *)
Inductive post_arg : Type :=
| PostNull
| PostForm (payload : value)
| PostEncoded (e : encoded).

(** The options object given to [https.request]. *)
Record request_opts : Type := {
  opt_method : string;
  opt_host : string;
  opt_port : option Z;
  rejectUnauthorized : bool;
  opt_path : string;
  opt_headers : list (string * value)
}.

Record response : Type := { statusCode : Z }.

(** The arguments [(err, res, body)] with which [sendRequest] calls back. *)
Inductive cb_args : Type :=
| CbErr (err : jserror)
| CbOk (res : response) (body : value).

(** What the caller of [makeRequest] is told: [cb(err)] or [cb(null, body)]. *)
Inductive outcome : Type :=
| Failure (err : jserror)
| Success (body : value).

Inductive effect : Type :=
| Encode (payload : value)
| HttpsRequest (o : request_opts)
| SetTimeout (ms : Z)
| Write (body : list byte)
| End
| Abort
| Callback (o : outcome)
| Uncaught
| Rejected.

(** [objectAssign(target, source)]: the source's keys win. *)
Fixpoint set_key (k : string) (v : value) (target : list (string * value))
  : list (string * value) :=
  match target with
  | [] => [(k, v)]
  | (k', v') :: rest =>
      if (k =? k')%string then (k, v) :: rest else (k', v') :: set_key k v rest
  end.

Definition objectAssign (target source : list (string * value))
  : list (string * value) :=
  fold_left (fun acc kv => set_key (fst kv) (snd kv) acc) source target.

(** ** What the client takes from its platform *)

Class Platform : Type := {
  (** [crypto.createHmac('sha256', key).update(data).digest()] *)
  hmac_sha256 : list byte -> list byte -> list byte;
  (** [buf.toString('base64')] and [new Buffer(s, 'base64')] *)
  base64_encode : list byte -> string;
  base64_decode : string -> list byte;
  JSON_stringify : value -> string;
  (** [JSON.parse]: the parsed value, or the [SyntaxError] it throws. *)
  JSON_parse : string -> jserror + value;
  (** [encodeFormData(payload, callback)]: the [(err, encoded)] it calls
      back with. *)
  encodeFormData : value -> jserror + encoded;
  (** [process.env.NODE_ENV] *)
  NODE_ENV : option string
}.

(** ** Events of one transaction *)

(** The chunk of [EvData] is the text that [chunk.toString()] gives for
    that chunk alone. *)

Inductive event : Type :=
| EvTimeout
| EvReqError (err : jserror)
| EvResponse (res : response)
| EvData (chunk : string)
| EvResError (err : jserror)
| EvResEnd.

(** The variables that the ['response'] handler closes over. *)
Record response_state : Type := {
  res : response;
  result : string;
  done_flag : bool
}.

(** ** The client *)

Section Client.

Context {P : Platform}.

(** *** [sendRequest]: signing and dispatch *)

(** [post] used as a condition. *)
Definition post_truthy (post : post_arg) : bool :=
  match post with
  | PostNull => false
  | PostForm v => truthy v
  | PostEncoded _ => true
  end.

(** [post && post.data && post.data.alertBody]; the encoder's output has
    no [data] property. *)
Definition isAlert (post : post_arg) : bool :=
  match post with
  | PostForm v =>
      truthy v && truthy (member v "data")
      && truthy (member (member v "data") "alertBody")
  | _ => false
  end.

(** [JSON.stringify(post)] on the alert route. *)
Definition stringify_post (post : post_arg) : string :=
  match post with
  | PostForm v => JSON_stringify v
  | _ => ""
  end.

(** [post ? (isAlert ? {...} : post.headers) : {}].  A structured payload
    that is not an alert has no usable [headers] and no [buffer]: the call
    throws before any request is made (see [payload_bytes]). *)
Definition request_headers (post : post_arg)
  : completion (list (string * value)) :=
  if post_truthy post then
    if isAlert post then
      Normal [("content-type", VStr "application/json");
              ("content-length", VNum (byteLength (stringify_post post)))]
    else
      match post with
      | PostEncoded e => Normal (headers e)
      | _ => Throws
      end
  else Normal [].

(** [headers['content-type'] ? headers['content-type'] : ''] *)
Definition content_type_part (hs : list (string * value)) : string :=
  match assoc "content-type" hs with
  | Some v => if truthy v then ToString v else ""
  | None => ""
  end.

(** [isAlert ? Buffer.from(JSON.stringify(post), 'utf-8') : post.buffer],
    the operand of [Buffer.concat]; anything but a buffer makes
    [Buffer.concat] throw. *)
Definition payload_bytes (post : post_arg) : completion (list byte) :=
  if isAlert post then Normal (utf8_bytes (stringify_post post))
  else
    match post with
    | PostEncoded e => Normal (buffer e)
    | _ => Throws
    end.

(** [config.host || defaultHost] *)
Definition request_host (cfg : config) : string :=
  match host cfg with
  | Some h => if truthy (VStr h) then h else defaultHost
  | None => defaultHost
  end.

Definition canonicalRequest (cfg : config) (date method endpoint : string)
    (hs : list (string * value)) (post : post_arg) : completion (list byte) :=
  let canonical :=
    ascii_bytes (method ++ "https://" ++ request_host cfg ++ endpoint ++ date
                 ++ content_type_part hs) in
  if post_truthy post then
    match payload_bytes post with
    | Normal payload => Normal (canonical ++ payload)%list
    | Throws => Throws
    end
  else Normal canonical.

Definition signature (cfg : config) (canonical : list byte) : string :=
  let key := base64_decode (apiSecret cfg) in
  base64_encode (hmac_sha256 key canonical).

Definition auth (cfg : config) (date : string) (canonical : list byte)
  : string :=
  "HHMAC; key=" ++ dq ++ apiId cfg ++ dq
  ++ "; signature=" ++ dq ++ signature cfg canonical ++ dq
  ++ "; date=" ++ dq ++ date ++ dq.

(** [process.env.NODE_ENV !== 'test'] *)
Definition reject_unauthorized : bool :=
  match NODE_ENV with
  | Some e => negb (e =? "test")%string
  | None => true
  end.

(** [x || void 0] and [x || 0] on an optional number. *)
Definition or_undefined (o : option Z) : option Z :=
  match o with
  | Some n => if truthy (VNum n) then Some n else None
  | None => None
  end.

Definition or_zero (o : option Z) : Z :=
  match o with
  | Some n => if truthy (VNum n) then n else 0
  | None => 0
  end.

Definition make_opts (cfg : config) (method endpoint authorization : string)
    (hs : list (string * value)) : request_opts :=
  {| opt_method := method;
     opt_host := request_host cfg;
     opt_port := or_undefined (port cfg);
     rejectUnauthorized := reject_unauthorized;
     opt_path := endpoint;
     opt_headers :=
       objectAssign [("Accept", VStr "application/json");
                     ("Authorization", VStr authorization)] hs |}.

(** [req.write(isAlert ? JSON.stringify(post) : post.buffer)]; a string
    is written in UTF-8. *)
Definition written_body (post : post_arg) : list byte :=
  if isAlert post then utf8_bytes (stringify_post post)
  else
    match post with
    | PostEncoded e => buffer e
    | _ => []
    end.

(** The synchronous part of [sendRequest]: what it does before any event
    arrives.  [date] is the clock reading, already formatted.  An
    exception makes the [async] function reject.  Here [https.request]
    and [req.setTimeout] are taken to return and the payload to be, when
    the body is written, what it was at the call; [sendRequest_run] below
    lifts both. *)
Definition sendRequest (cfg : config) (date method endpoint : string)
    (post : post_arg) : list effect :=
  match request_headers post with
  | Throws => [Rejected]
  | Normal hs =>
      match canonicalRequest cfg date method endpoint hs post with
      | Throws => [Rejected]
      | Normal canonical =>
          let opts :=
            make_opts cfg method endpoint (auth cfg date canonical) hs in
          ([HttpsRequest opts; SetTimeout (or_zero (timeout cfg))]
           ++ (if post_truthy post then [Write (written_body post)] else [])
           ++ [End])%list
      end
  end.

(** *** The handlers that [sendRequest] attaches *)

(** [err.code === 'ECONNRESET'] *)
Definition is_reset (err : jserror) : bool :=
  match code err with
  | Some c => (c =? "ECONNRESET")%string
  | None => false
  end.

Definition timeout_error (cfg : config) : jserror :=
  Error ("Apple News API endpoint timeout after "
         ++ ToString_opt (timeout cfg) ++ " ms").

(** [req.on('error', ...)] *)
Definition on_req_error (cfg : config) (cb : cb_args -> list effect)
    (err : jserror) : list effect :=
  if is_reset err then cb (CbErr (timeout_error cfg)) else cb (CbErr err).

(** The tail of the ['end'] handler, from [if (parsed.data)] on. *)
Definition classify (rs : response) (text : string) (parsed : value)
  : completion cb_args :=
  if nullish parsed then Throws
  else if truthy (member parsed "data") then
    Normal (CbOk rs (member parsed "data"))
  else
    match member parsed "errors" with
    | VArr (first :: _) =>
        if nullish first then Throws
        else if truthy (member first "code") then
          Normal (CbErr {| message := text; code := None;
                           apiError := Some first |})
        else Normal (CbErr (Error text))
    | _ => Normal (CbErr (Error text))
    end.

(** The ['end'] handler once the guard is passed: what it calls back with. *)
Definition body_outcome (rs : response) (text : string) : completion cb_args :=
  if negb (truthy (VStr text)) then Normal (CbOk rs VNull)
  else
    match JSON_parse text with
    | inl e => Normal (CbErr e)
    | inr parsed => classify rs text parsed
    end.

Definition mark_done (st : response_state) : response_state :=
  {| res := res st; result := result st; done_flag := true |}.

(** [res.on('end', ...)] *)
Definition on_res_end (cb : cb_args -> list effect) (st : response_state)
  : response_state * list effect :=
  if done_flag st then (st, [])
  else
    match body_outcome (res st) (result st) with
    | Normal a => (mark_done st, cb a)
    | Throws => (mark_done st, [Uncaught])
    end.

(** [res.on('error', ...)] *)
Definition on_res_error (cb : cb_args -> list effect) (err : jserror)
    (st : response_state) : response_state * list effect :=
  if done_flag st then (st, []) else (mark_done st, cb (CbErr err)).

(** [res.on('data', ...)] *)
Definition on_res_data (chunk : string) (st : response_state)
  : response_state :=
  {| res := res st; result := result st ++ chunk; done_flag := done_flag st |}.

(** One event of the transaction.  The state is the response being read,
    if any; an event of a response that has not arrived has no listener. *)
Definition on_event (cfg : config) (cb : cb_args -> list effect)
    (st : option response_state) (ev : event)
  : option response_state * list effect :=
  match ev, st with
  | EvTimeout, _ => (st, [Abort])
  | EvReqError err, _ => (st, on_req_error cfg cb err)
  | EvResponse rs, _ =>
      (Some {| res := rs; result := ""; done_flag := false |}, [])
  | EvData chunk, Some s => (Some (on_res_data chunk s), [])
  | EvResError err, Some s =>
      let (s', effs) := on_res_error cb err s in (Some s', effs)
  | EvResEnd, Some s =>
      let (s', effs) := on_res_end cb s in (Some s', effs)
  | _, None => (None, [])
  end.

Fixpoint run (cfg : config) (cb : cb_args -> list effect)
    (st : option response_state) (evs : list event)
  : option response_state * list effect :=
  match evs with
  | [] => (st, [])
  | ev :: rest =>
      let (st1, effs1) := on_event cfg cb st ev in
      let (st2, effs2) := run cfg cb st1 rest in
      (st2, (effs1 ++ effs2)%list)
  end.

(** *** [makeRequest] *)

(** [String(res.statusCode)[0] !== '2'] *)
Definition not_2xx (status : Z) : bool :=
  match first_char (String_number status) with
  | Some c => negb (c =? "2")%char
  | None => true
  end.

Definition status_error (method endpoint : string) (status : Z) : jserror :=
  Error (method ++ " " ++ endpoint ++ " code " ++ String_number status).

(** The [done] closure of [makeRequest]. *)
Definition done (method endpoint : string) (a : cb_args) : list effect :=
  match a with
  | CbErr err => [Callback (Failure err)]
  | CbOk rs body =>
      if not_2xx (statusCode rs) then
        [Callback (Failure (status_error method endpoint (statusCode rs)))]
      else [Callback (Success body)]
  end.

Record request_options : Type := { formData : value }.

(** [makeRequest] up to the point where it waits for events. *)
Definition makeRequest (cfg : config) (date method endpoint : string)
    (requestOpts : request_options) : list effect :=
  let fd := formData requestOpts in
  if (method =? "POST")%string && truthy fd then
    if truthy (member fd "data")
       && truthy (member (member fd "data") "alertBody")
    then sendRequest cfg date method endpoint (PostForm fd)
    else
      let arg := if truthy fd then fd else VObj [] in
      Encode arg ::
      match encodeFormData arg with
      | inl err => done method endpoint (CbErr err)
      | inr enc => sendRequest cfg date method endpoint (PostEncoded enc)
      end
  else sendRequest cfg date method endpoint PostNull.

(** A request is on the wire. *)
Definition is_request (e : effect) : bool :=
  match e with
  | HttpsRequest _ => true
  | _ => false
  end.

(** One whole transaction: the call, then the events that reach the
    handlers when a request was issued. *)
Definition transaction (cfg : config) (date method endpoint : string)
    (requestOpts : request_options) (evs : list event) : list effect :=
  let start := makeRequest cfg date method endpoint requestOpts in
  if existsb is_request start then
    (start ++ snd (run cfg (done method endpoint) None evs))%list
  else start.

End Client.

(** The outcomes handed to the caller, in order. *)
Fixpoint callbacks (effs : list effect) : list outcome :=
  match effs with
  | [] => []
  | Callback o :: rest => o :: callbacks rest
  | _ :: rest => callbacks rest
  end.

(** A response whose body arrives in [chunks] and then ends. *)
Definition respond (rs : response) (chunks : list string) : list event :=
  (EvResponse rs :: map EvData chunks ++ [EvResEnd])%list.

(** The events that the response's own listeners handle. *)
Definition response_event (ev : event) : bool :=
  match ev with
  | EvData _ | EvResError _ | EvResEnd => true
  | _ => false
  end.

Definition concat_chunks (chunks : list string) : string :=
  fold_right append "" chunks.

(** [sub] occurs inside [s]. *)
Fixpoint includes (s sub : string) : bool :=
  prefix sub s
  || match s with
     | EmptyString => false
     | String _ rest => includes rest sub
     end.

(** ** Counting what happens in a transaction *)

Definition is_req_error (ev : event) : bool :=
  match ev with
  | EvReqError _ => true
  | _ => false
  end.

Definition is_response (ev : event) : bool :=
  match ev with
  | EvResponse _ => true
  | _ => false
  end.

Definition count_events (f : event -> bool) (evs : list event) : nat :=
  List.length (filter f evs).

(** A response whose [done] flag is still down can call back once more. *)
Definition pending (st : option response_state) : nat :=
  match st with
  | Some s => if done_flag s then 0%nat else 1%nat
  | None => 0%nat
  end.

(** The headers that [sendRequest] always supplies itself. *)
Definition own_headers (authorization : string) : list (string * value) :=
  [("Accept", VStr "application/json"); ("Authorization", VStr authorization)].

(** ** The specification's wording of the signer *)

(** The canonical request of the specification: method, [https://] and
    host, path, timestamp, the content-type when there is one, the payload
    bytes when there is a payload. *)
Definition spec_canonical (method hostname path timestamp : string)
    (contentType : option string) (payload : option (list byte)) : list byte :=
  (ascii_bytes method ++ ascii_bytes "https://" ++ ascii_bytes hostname
   ++ ascii_bytes path ++ ascii_bytes timestamp
   ++ match contentType with Some c => ascii_bytes c | None => [] end
   ++ match payload with Some b => b | None => [] end)%list.

(** The header of the specification, around an already encoded digest. *)
Definition spec_authorization (id digest timestamp : string) : string :=
  "HHMAC; key=" ++ dq ++ id ++ dq ++ "; signature=" ++ dq ++ digest ++ dq
  ++ "; date=" ++ dq ++ timestamp ++ dq.

(** The content-type a header set carries, when it is a string. *)
Definition content_type_of (hs : list (string * value)) : option string :=
  match assoc "content-type" hs with
  | Some (VStr s) => Some s
  | _ => None
  end.

(** The payload of the specification: none, the UTF-8 JSON of an alert,
    or the encoder's buffer. *)
Definition spec_payload {P : Platform} (post : post_arg)
  : option (list byte) :=
  match post with
  | PostNull => None
  | PostForm v => if truthy v then Some (utf8_bytes (JSON_stringify v)) else None
  | PostEncoded e => Some (buffer e)
  end.

(** ** The call as Node runs it *)

(** Node validates what [https.request] and [req.setTimeout] are given and
    throws on what it rejects (a path with a space, a negative duration):
    which arguments those are belongs to Node. *)
Class Transport : Type := {
  request_throws : request_opts -> bool;
  setTimeout_throws : Z -> bool
}.

Section Run.

Context {P : Platform} {T : Transport}.

(** [req.write(isAlert ? JSON.stringify(post) : post.buffer)].  This runs
    after the [await], when the caller's code has run: [isAlert] is the
    constant computed at the call, [later] is the object [post] as it is
    by then. *)
Definition written_body_later (post later : post_arg) : list byte :=
  if isAlert post then utf8_bytes (stringify_post later)
  else
    match later with
    | PostEncoded e => buffer e
    | _ => []
    end.

(** [sendRequest] with its exceptions: a throw of [https.request] leaves
    no request, a throw of [req.setTimeout] leaves a request that has no
    listener and is never written nor ended. *)
Definition sendRequest_run (cfg : config) (date method endpoint : string)
    (post later : post_arg) : list effect :=
  match request_headers post with
  | Throws => [Rejected]
  | Normal hs =>
      match canonicalRequest cfg date method endpoint hs post with
      | Throws => [Rejected]
      | Normal canonical =>
          let opts :=
            make_opts cfg method endpoint (auth cfg date canonical) hs in
          if request_throws opts then [Rejected]
          else if setTimeout_throws (or_zero (timeout cfg)) then
            [HttpsRequest opts; Rejected]
          else
            ([HttpsRequest opts; SetTimeout (or_zero (timeout cfg))]
             ++ (if post_truthy post
                 then [Write (written_body_later post later)] else [])
             ++ [End])%list
      end
  end.

(** [makeRequest] over [sendRequest_run].  [later] is the caller's
    [formData] object as it is when the suspended call resumes; the
    encoder's output is an object of its own, which the caller does not
    hold. *)
Definition makeRequest_run (cfg : config) (date method endpoint : string)
    (requestOpts : request_options) (later : value) : list effect :=
  let fd := formData requestOpts in
  if (method =? "POST")%string && truthy fd then
    if truthy (member fd "data")
       && truthy (member (member fd "data") "alertBody")
    then sendRequest_run cfg date method endpoint (PostForm fd) (PostForm later)
    else
      let arg := if truthy fd then fd else VObj [] in
      Encode arg ::
      match encodeFormData arg with
      | inl err => done method endpoint (CbErr err)
      | inr enc =>
          sendRequest_run cfg date method endpoint (PostEncoded enc)
            (PostEncoded enc)
      end
  else sendRequest_run cfg date method endpoint PostNull PostNull.

(** The request of the alert route as the specification describes it,
    for the JSON text [json] of the payload. *)
Definition alert_request (cfg : config) (date endpoint json : string)
  : request_opts :=
  {| opt_method := "POST";
     opt_host := request_host cfg;
     opt_port := or_undefined (port cfg);
     rejectUnauthorized := reject_unauthorized;
     opt_path := endpoint;
     opt_headers :=
       (own_headers
          (spec_authorization (apiId cfg)
             (signature cfg
                (spec_canonical "POST" (request_host cfg) endpoint date
                   (Some "application/json") (Some (utf8_bytes json))))
             date)
        ++ [("content-type", VStr "application/json");
            ("content-length", VNum (byteLength json))])%list |}.

(** What follows the encoder call or stands alone: the request [o], its
    timeout, the body if any, the end; or the rejection where Node
    throws. *)
Definition request_steps (o : request_opts) (ms : Z)
    (body : option (list byte)) : list effect :=
  if request_throws o then [Rejected]
  else if setTimeout_throws ms then [HttpsRequest o; Rejected]
  else
    (HttpsRequest o :: SetTimeout ms
     :: match body with Some b => [Write b] | None => [] end
     ++ [End])%list.

End Run.

(** ** The claims that the code does not bear out, as they are worded *)

(** A non-2xx status gives an error whose message names the method, the
    path and the status code. *)
Definition status_gate_claim : Prop :=
  forall (P : Platform) cfg method endpoint rs chunks o,
    not_2xx (statusCode rs) = true ->
    callbacks (snd (run cfg (done method endpoint) None (respond rs chunks)))
    = [o] ->
    exists err,
      o = Failure err
      /\ includes (message err) method = true
      /\ includes (message err) endpoint = true
      /\ includes (message err) (String_number (statusCode rs)) = true.

(** A body with a [data] field and a 2xx status is a success with that
    field's value, whatever the value. *)
Definition data_field_claim : Prop :=
  forall (P : Platform) cfg method endpoint rs chunks fields d,
    200 <= statusCode rs <= 299 ->
    concat_chunks chunks <> "" ->
    JSON_parse (concat_chunks chunks) = inr (VObj fields) ->
    assoc "data" fields = Some d ->
    callbacks (snd (run cfg (done method endpoint) None (respond rs chunks)))
    = [Success d].

(** A body without [data] whose [errors] starts with an element carrying
    a [code] is a structured error. *)
Definition structured_error_claim : Prop :=
  forall (P : Platform) cfg method endpoint rs chunks fields first more c,
    concat_chunks chunks <> "" ->
    JSON_parse (concat_chunks chunks) = inr (VObj fields) ->
    assoc "data" fields = None ->
    assoc "errors" fields = Some (VArr (VObj first :: more)) ->
    assoc "code" first = Some c ->
    callbacks (snd (run cfg (done method endpoint) None (respond rs chunks)))
    = [Failure {| message := concat_chunks chunks; code := None;
                  apiError := Some (VObj first) |}].

(** A POST whose payload has [data.alertBody] skips the encoder; the
    payload is serialized once, and that one text gives the content-length,
    the signed bytes and the written body. *)
Definition alert_claim : Prop :=
  forall (P : Platform) (T : Transport) cfg date endpoint fields inner body
         later,
    assoc "data" fields = Some (VObj inner) ->
    assoc "alertBody" inner = Some body ->
    let json := JSON_stringify (VObj fields) in
    let effs :=
      makeRequest_run cfg date "POST" endpoint {| formData := VObj fields |}
        later in
    (forall p, ~ In (Encode p) effs)
    /\ effs = [HttpsRequest (alert_request cfg date endpoint json);
               SetTimeout (or_zero (timeout cfg));
               Write (utf8_bytes json); End].

(** ** A platform to run the model on examples *)

Module Demo.

Definition body_empty_object : string := "{}".
Definition body_data_zero : string := "{" ++ dq ++ "data" ++ dq ++ ":0}".
Definition body_data_id : string :=
  "{" ++ dq ++ "data" ++ dq ++ ":{" ++ dq ++ "id" ++ dq ++ ":" ++ dq ++ "123"
  ++ dq ++ "}}".
Definition body_errors : string :=
  "{" ++ dq ++ "errors" ++ dq ++ ":[{" ++ dq ++ "code" ++ dq ++ ":" ++ dq
  ++ "X" ++ dq ++ "," ++ dq ++ "message" ++ dq ++ ":" ++ dq ++ "m" ++ dq
  ++ "}]}".
Definition body_errors_blank_code : string :=
  "{" ++ dq ++ "errors" ++ dq ++ ":[{" ++ dq ++ "code" ++ dq ++ ":" ++ dq
  ++ dq ++ "}]}".

Definition alert_payload : value :=
  VObj [("data", VObj [("alertBody", VStr "hi")])].
Definition blank_alert_payload : value :=
  VObj [("data", VObj [("alertBody", VStr "")])].
Definition alert_json : string :=
  "{" ++ dq ++ "data" ++ dq ++ ":{" ++ dq ++ "alertBody" ++ dq ++ ":" ++ dq
  ++ "hi" ++ dq ++ "}}".

Definition syntax_error : jserror := Error "Unexpected token".

(** [JSON.parse] on the texts above; any other text counts as malformed. *)
Definition parse (s : string) : jserror + value :=
  if (s =? body_empty_object)%string then inr (VObj [])
  else if (s =? body_data_zero)%string then inr (VObj [("data", VNum 0)])
  else if (s =? body_data_id)%string then
    inr (VObj [("data", VObj [("id", VStr "123")])])
  else if (s =? body_errors)%string then
    inr (VObj [("errors",
                VArr [VObj [("code", VStr "X"); ("message", VStr "m")]])])
  else if (s =? body_errors_blank_code)%string then
    inr (VObj [("errors", VArr [VObj [("code", VStr "")]])])
  else inl syntax_error.

(** [JSON.stringify] on the alert payload; [{}] stands for the rest. *)
Definition stringify (v : value) : string :=
  match v with
  | VObj [(outer, VObj [(inner, VStr text)])] =>
      if ((outer =? "data") && (inner =? "alertBody") && (text =? "hi"))%string
      then alert_json else "{}"
  | _ => "{}"
  end.

Definition form : encoded :=
  {| buffer := list_byte_of_string "--boundary--";
     headers := [("content-type",
                  VStr "multipart/form-data; boundary=boundary");
                 ("content-length", VNum 12)] |}.

Definition encoder_error : jserror := Error "ENOENT: bundle file missing".

(** An encoder that fails on an empty object and otherwise returns a fixed
    multipart buffer. *)
Definition encode (v : value) : jserror + encoded :=
  match v with
  | VObj [] => inl encoder_error
  | _ => inr form
  end.

(** Stand-ins for the digest and for base64; they only need to be
    functions. *)
Definition platform (env : option string) : Platform :=
  {| hmac_sha256 := fun key data => (key ++ data)%list;
     base64_encode := string_of_list_byte;
     base64_decode := list_byte_of_string;
     JSON_stringify := stringify;
     JSON_parse := parse;
     encodeFormData := encode;
     NODE_ENV := env |}.

Definition node : Platform := platform None.
Definition test_node : Platform := platform (Some "test").

Definition cfg : config :=
  {| apiId := "key-id"; apiSecret := "c2VjcmV0"; host := None; port := None;
     timeout := Some 5000 |}.

Definition date : string := "2024-01-02T03:04:05Z".

Definition reset : jserror :=
  {| message := "socket hang up"; code := Some "ECONNRESET";
     apiError := None |}.
Definition refused : jserror :=
  {| message := "connect ECONNREFUSED"; code := Some "ECONNREFUSED";
     apiError := None |}.

End Demo.

(** A second platform, whose parser also knows the text [null] and whose
    encoder's output brings an [Accept] header of its own. *)
Module Wire.

Definition body_null : string := "null".

Definition parse (s : string) : jserror + value :=
  if (s =? body_null)%string then inr VNull else Demo.parse s.

Definition form : encoded :=
  {| buffer := list_byte_of_string "--boundary--";
     headers := [("Accept", VStr "*/*");
                 ("content-type",
                  VStr "multipart/form-data; boundary=boundary")] |}.

Definition node : Platform :=
  {| hmac_sha256 := fun key data => (key ++ data)%list;
     base64_encode := string_of_list_byte;
     base64_decode := list_byte_of_string;
     JSON_stringify := Demo.stringify;
     JSON_parse := parse;
     encodeFormData := fun _ => inr form;
     NODE_ENV := None |}.

End Wire.

(** A third platform: a transport that rejects a path with a space and a
    negative timeout, and a serializer that knows two alert payloads. *)
Module Strict.

Definition transport : Transport :=
  {| request_throws := fun o => includes (opt_path o) " ";
     setTimeout_throws := fun ms => ms <? 0 |}.

Definition changed_payload : value :=
  VObj [("data", VObj [("alertBody", VStr "bye")])].
Definition changed_json : string :=
  "{" ++ dq ++ "data" ++ dq ++ ":{" ++ dq ++ "alertBody" ++ dq ++ ":" ++ dq
  ++ "bye" ++ dq ++ "}}".

Definition stringify (v : value) : string :=
  match v with
  | VObj [(outer, VObj [(inner, VStr text)])] =>
      if ((outer =? "data") && (inner =? "alertBody"))%string then
        if (text =? "hi")%string then Demo.alert_json
        else if (text =? "bye")%string then changed_json
        else "{}"
      else "{}"
  | _ => "{}"
  end.

Definition node : Platform :=
  {| hmac_sha256 := fun key data => (key ++ data)%list;
     base64_encode := string_of_list_byte;
     base64_decode := list_byte_of_string;
     JSON_stringify := stringify;
     JSON_parse := Demo.parse;
     encodeFormData := Demo.encode;
     NODE_ENV := None |}.

Definition hasty_cfg : config :=
  {| apiId := "key-id"; apiSecret := "c2VjcmV0"; host := None; port := None;
     timeout := Some (-1) |}.

End Strict.

(** ** Strings, buffers and header sets *)

Lemma append_assoc (a b c : string) : (a ++ b) ++ c = a ++ b ++ c.
Proof.
  induction a as [|x a IH]; simpl; [reflexivity | now rewrite IH].
Qed.

Lemma append_empty_r (a : string) : a ++ "" = a.
Proof.
  induction a as [|x a IH]; simpl; [reflexivity | now rewrite IH].
Qed.

Lemma ascii_bytes_app (a b : string) :
  ascii_bytes (a ++ b) = (ascii_bytes a ++ ascii_bytes b)%list.
Proof.
  unfold ascii_bytes, list_byte_of_string.
  induction a as [|x a IH]; simpl; [reflexivity | now rewrite IH].
Qed.

Lemma prefix_append (sub rest : string) : prefix sub (sub ++ rest) = true.
Proof.
  induction sub as [|x sub IH]; simpl.
  - now destruct rest.
  - destruct (ascii_dec x x) as [_|ne]; [exact IH | now elim ne].
Qed.

Lemma includes_here (s sub : string) : prefix sub s = true -> includes s sub = true.
Proof.
  intros H. destruct s; cbn [includes]; rewrite H; reflexivity.
Qed.

Lemma includes_append (before sub rest : string) :
  includes (before ++ sub ++ rest) sub = true.
Proof.
  induction before as [|x before IH].
  - change ("" ++ sub ++ rest) with (sub ++ rest).
    apply includes_here, prefix_append.
  - cbn [append includes]. rewrite IH. apply orb_true_r.
Qed.

Lemma includes_suffix (before sub : string) :
  includes (before ++ sub) sub = true.
Proof.
  rewrite <- (append_empty_r sub) at 1. apply includes_append.
Qed.

Lemma assoc_set_key (k k' : string) (v : value) (target : list (string * value)) :
  assoc k (set_key k' v target)
  = if (k =? k')%string then Some v else assoc k target.
Proof.
  induction target as [|[k0 v0] target IH]; simpl.
  - reflexivity.
  - destruct (String.eqb_spec k' k0) as [->|ne]; simpl.
    + destruct (k =? k0)%string; reflexivity.
    + rewrite IH.
      destruct (String.eqb_spec k k') as [->|ne'].
      * apply String.eqb_neq in ne. now rewrite ne.
      * reflexivity.
Qed.

(** Keys that the source object lacks keep the target's value. *)
Lemma assoc_objectAssign_absent (k : string) (source target : list (string * value)) :
  assoc k source = None ->
  assoc k (objectAssign target source) = assoc k target.
Proof.
  unfold objectAssign. revert target.
  induction source as [|[k0 v0] source IH]; intros target H; simpl in *.
  - reflexivity.
  - destruct (k =? k0)%string eqn:E; [discriminate|].
    rewrite IH by assumption. rewrite assoc_set_key, E. reflexivity.
Qed.

(** Every status from 200 to 299 prints with a leading [2]. *)
Lemma not_2xx_false (status : Z) : 200 <= status <= 299 -> not_2xx status = false.
Proof.
  intros H.
  assert (all : forallb (fun k => negb (not_2xx (200 + Z.of_nat k))) (seq 0 100)
                = true) by (vm_compute; reflexivity).
  rewrite forallb_forall in all.
  specialize (all (Z.to_nat (status - 200))).
  rewrite Z2Nat.id in all by lia.
  replace (200 + (status - 200)) with status in all by lia.
  apply negb_true_iff, all, in_seq. lia.
Qed.

(** ** Properties of the client *)

Section Properties.

Context {P : Platform}.

(** *** Reading a response *)

Lemma response_state_eta (st : response_state) :
  {| res := res st; result := result st; done_flag := done_flag st |} = st.
Proof. now destruct st. Qed.

(** Data events only grow the accumulated text. *)
Lemma run_data cfg cb (chunks : list string) :
  forall (st : response_state) (evs : list event),
    run cfg cb (Some st) (map EvData chunks ++ evs)
    = run cfg cb
        (Some {| res := res st; result := result st ++ concat_chunks chunks;
                 done_flag := done_flag st |}) evs.
Proof.
  induction chunks as [|c chunks IH]; intros st evs.
  - cbn [map app concat_chunks fold_right].
    now rewrite append_empty_r, response_state_eta.
  - cbn [map app run on_event].
    rewrite IH. unfold on_res_data. cbn [res result done_flag].
    change (concat_chunks (c :: chunks)) with (c ++ concat_chunks chunks).
    rewrite append_assoc.
    now destruct (run cfg cb _ evs).
Qed.

(** A response that arrives whole is classified once, on its full text. *)
Lemma run_respond cfg cb (rs : response) (chunks : list string) :
  snd (run cfg cb None (respond rs chunks))
  = match body_outcome rs (concat_chunks chunks) with
    | Normal a => cb a
    | Throws => [Uncaught]
    end.
Proof.
  unfold respond. cbn [app run on_event].
  rewrite run_data. cbn [res result done_flag append run on_event].
  unfold on_res_end. cbn [res result done_flag].
  destruct (body_outcome rs (concat_chunks chunks)); cbn [snd];
    now rewrite app_nil_r.
Qed.

Lemma body_outcome_empty (rs : response) : body_outcome rs "" = Normal (CbOk rs VNull).
Proof. reflexivity. Qed.

Lemma body_outcome_parsed (rs : response) (text : string) (parsed : value) :
  text <> "" ->
  JSON_parse text = inr parsed ->
  body_outcome rs text = classify rs text parsed.
Proof.
  intros ne Hp. unfold body_outcome. cbn [truthy].
  apply String.eqb_neq in ne. rewrite ne, Hp. reflexivity.
Qed.

(** The ['end'] handler dies on an exception exactly when the parsed body
    is [null], or has no truthy [data] while its [errors] array starts with
    [null]. *)
Lemma body_outcome_throws (rs : response) (text : string) :
  body_outcome rs text = Throws <->
  text <> ""
  /\ exists parsed,
      JSON_parse text = inr parsed
      /\ (nullish parsed = true
          \/ (truthy (member parsed "data") = false
              /\ exists first more,
                  member parsed "errors" = VArr (first :: more)
                  /\ nullish first = true)).
Proof.
  unfold body_outcome, classify. cbn [truthy]. split.
  - destruct (String.eqb_spec text "") as [->|ne]; cbn [negb]; [discriminate|].
    destruct (JSON_parse text) as [e|parsed]; [discriminate|].
    intros H. split; [exact ne|]. exists parsed. split; [reflexivity|].
    destruct (nullish parsed); [now left|]. right.
    destruct (truthy (member parsed "data")); [discriminate|].
    split; [reflexivity|].
    destruct (member parsed "errors") as [| | | | |[|x xs]|]; try discriminate.
    exists x, xs. split; [reflexivity|].
    destruct (nullish x); [reflexivity|].
    destruct (truthy (member x "code")); discriminate.
  - intros (ne & parsed & Hp & H).
    apply String.eqb_neq in ne. rewrite ne, Hp. cbn [negb].
    destruct H as [H|(Hd & first & more & He & Hf)].
    + now rewrite H.
    + destruct (nullish parsed); [reflexivity|].
      now rewrite Hd, He, Hf.
Qed.

(** *** The guard of the response handlers *)

(** Once [done] is set, the response handlers stay silent. *)
Lemma run_after_done cfg cb (evs : list event) :
  forall st : response_state,
    done_flag st = true ->
    forallb response_event evs = true ->
    snd (run cfg cb (Some st) evs) = [].
Proof.
  induction evs as [|ev evs IH]; intros st Hd Hall; [reflexivity|].
  cbn [forallb] in Hall. apply andb_true_iff in Hall as [Hev Hall].
  destruct ev; try discriminate; cbn [run on_event].
  - specialize (IH (on_res_data chunk st) Hd Hall).
    now destruct (run cfg cb (Some (on_res_data chunk st)) evs).
  - unfold on_res_error. rewrite Hd.
    specialize (IH st Hd Hall). now destruct (run cfg cb (Some st) evs).
  - unfold on_res_end. rewrite Hd.
    specialize (IH st Hd Hall). now destruct (run cfg cb (Some st) evs).
Qed.

(** The events of one response reach the caller at most once. *)
Lemma response_events_call_back_once cfg method endpoint (evs : list event) :
  forall st : response_state,
    forallb response_event evs = true ->
    (List.length (callbacks (snd (run cfg (done method endpoint) (Some st) evs)))
     <= 1)%nat.
Proof.
  induction evs as [|ev evs IH]; intros st Hall; [cbn; lia|].
  cbn [forallb] in Hall. apply andb_true_iff in Hall as [Hev Hall].
  destruct ev; try discriminate; cbn [run on_event].
  - specialize (IH (on_res_data chunk st) Hall).
    now destruct (run cfg (done method endpoint) (Some (on_res_data chunk st)) evs).
  - unfold on_res_error. destruct (done_flag st) eqn:Hd.
    + specialize (IH st Hall).
      now destruct (run cfg (done method endpoint) (Some st) evs).
    + pose proof (run_after_done cfg (done method endpoint) evs (mark_done st)
                    eq_refl Hall) as Hs.
      destruct (run cfg (done method endpoint) (Some (mark_done st)) evs).
      cbn [snd] in *. subst. cbn. lia.
  - unfold on_res_end. destruct (done_flag st) eqn:Hd.
    + specialize (IH st Hall).
      now destruct (run cfg (done method endpoint) (Some st) evs).
    + pose proof (run_after_done cfg (done method endpoint) evs (mark_done st)
                    eq_refl Hall) as Hs.
      destruct (body_outcome (res st) (result st)) as [a|];
        destruct (run cfg (done method endpoint) (Some (mark_done st)) evs);
        cbn [snd] in *; subst; rewrite app_nil_r.
      * destruct a as [e|r b]; cbn [done]; [cbn; lia|].
        destruct (not_2xx (statusCode r)); cbn; lia.
      * cbn; lia.
Qed.

(** *** The status-code gate and the classification of the body *)

(** C8: an empty body under a 2xx status reaches the caller as a success
    with null data, and as nothing else. *)
Theorem empty_body_2xx_is_success cfg method endpoint rs chunks :
  200 <= statusCode rs <= 299 ->
  concat_chunks chunks = "" ->
  snd (run cfg (done method endpoint) None (respond rs chunks))
  = [Callback (Success VNull)].
Proof.
  intros H2 He. rewrite run_respond, He, body_outcome_empty.
  cbn [done]. now rewrite (not_2xx_false _ H2).
Qed.

(** C3, amended: a body that parses to an object with a truthy [data]
    field, under a 2xx status, reaches the caller as a success carrying
    exactly that field's value. *)
Theorem truthy_data_2xx_is_success cfg method endpoint rs chunks fields d :
  200 <= statusCode rs <= 299 ->
  concat_chunks chunks <> "" ->
  JSON_parse (concat_chunks chunks) = inr (VObj fields) ->
  assoc "data" fields = Some d ->
  truthy d = true ->
  snd (run cfg (done method endpoint) None (respond rs chunks))
  = [Callback (Success d)].
Proof.
  intros H2 ne Hp Hd Ht.
  rewrite run_respond, (body_outcome_parsed _ _ _ ne Hp).
  unfold classify. cbn [nullish member]. rewrite Hd, Ht.
  cbn [done]. now rewrite (not_2xx_false _ H2).
Qed.

(** C5, amended: a body that parses to an object without [data], whose
    [errors] is an array starting with an object that has a truthy [code],
    reaches the caller as an error whose message is the raw text and whose
    [apiError] is that first element, so that the detail's code is the
    first element's code. *)
Theorem truthy_code_is_structured_error
    cfg method endpoint rs chunks fields first more c :
  concat_chunks chunks <> "" ->
  JSON_parse (concat_chunks chunks) = inr (VObj fields) ->
  assoc "data" fields = None ->
  assoc "errors" fields = Some (VArr (VObj first :: more)) ->
  assoc "code" first = Some c ->
  truthy c = true ->
  exists err,
    snd (run cfg (done method endpoint) None (respond rs chunks))
    = [Callback (Failure err)]
    /\ message err = concat_chunks chunks
    /\ apiError err = Some (VObj first)
    /\ option_map (fun detail => member detail "code") (apiError err) = Some c.
Proof.
  intros ne Hp Hd He Hc Ht.
  rewrite run_respond, (body_outcome_parsed _ _ _ ne Hp).
  unfold classify. cbn [nullish member]. rewrite Hd, He.
  cbn [truthy nullish member]. rewrite Hc, Ht.
  eexists. split; [reflexivity|]. cbn. rewrite Hc. auto.
Qed.

(** C2, amended: when the status does not print with a leading [2] and
    the ['end'] handler runs to completion, the caller receives exactly one
    outcome and it is an error, also when the body parsed and carries a
    [data] field.  If the body alone would have been a success, the error's
    message is the method, the path and the status code; if the body was
    already classified as an error, the caller receives that error. *)
Theorem non_2xx_is_failure cfg method endpoint rs chunks :
  not_2xx (statusCode rs) = true ->
  body_outcome rs (concat_chunks chunks) <> Throws ->
  exists err,
    snd (run cfg (done method endpoint) None (respond rs chunks))
    = [Callback (Failure err)]
    /\ (forall r body,
          body_outcome rs (concat_chunks chunks) = Normal (CbOk r body) ->
          message err
          = method ++ " " ++ endpoint ++ " code " ++ String_number (statusCode rs)
          /\ includes (message err) method = true
          /\ includes (message err) endpoint = true
          /\ includes (message err) (String_number (statusCode rs)) = true)
    /\ (forall e,
          body_outcome rs (concat_chunks chunks) = Normal (CbErr e) -> err = e).
Proof.
  intros Hs Hn. rewrite run_respond.
  assert (Hres : forall r body,
             body_outcome rs (concat_chunks chunks) = Normal (CbOk r body) ->
             r = rs).
  { intros r body. unfold body_outcome, classify.
    destruct (negb _); [now intros [= <-]|].
    destruct (JSON_parse _) as [e|parsed]; [discriminate|].
    destruct (nullish parsed); [discriminate|].
    destruct (truthy (member parsed "data")); [now intros [= <-]|].
    destruct (member parsed "errors") as [| | | | |[|x xs]|]; try discriminate.
    destruct (nullish x); [discriminate|].
    destruct (truthy (member x "code")); discriminate. }
  destruct (body_outcome rs (concat_chunks chunks)) as [[e|r body]|] eqn:Hb;
    [| |now elim Hn].
  - exists e. cbn [done]. split; [reflexivity|]. split.
    + intros r body [=].
    + now intros e' [= <-].
  - rewrite (Hres r body eq_refl) in *. cbn [done]. rewrite Hs.
    exists (status_error method endpoint (statusCode rs)).
    split; [reflexivity|]. split; [|intros e [=]].
    intros _ _ _. unfold status_error, Error. cbn [message].
    repeat split.
    + change (method ++ " " ++ endpoint ++ " code " ++ String_number (statusCode rs))
        with ("" ++ method ++ " " ++ endpoint ++ " code "
              ++ String_number (statusCode rs)).
      apply includes_append.
    + rewrite <- append_assoc. apply includes_append.
    + rewrite <- !append_assoc. apply includes_suffix.
Qed.

(** *** Socket errors *)

(** C9: a socket error whose code is [ECONNRESET] reaches the caller as
    the timeout error, whose message ends with the configured timeout and
    [ ms]; a socket error with any other code reaches the caller as it
    is. *)
Theorem socket_error_classification cfg method endpoint st err :
  exists delivered,
    snd (on_event cfg (done method endpoint) st (EvReqError err))
    = [Callback (Failure delivered)]
    /\ (code err = Some "ECONNRESET" ->
        delivered = timeout_error cfg
        /\ forall t,
            timeout cfg = Some t ->
            message delivered
            = "Apple News API endpoint timeout after " ++ String_number t
              ++ " ms"
            /\ includes (message delivered) (String_number t ++ " ms") = true)
    /\ (code err <> Some "ECONNRESET" -> delivered = err).
Proof.
  cbn [on_event snd]. unfold on_req_error, is_reset.
  destruct (code err) as [c|] eqn:Hc.
  - destruct (String.eqb_spec c "ECONNRESET") as [->|ne].
    + exists (timeout_error cfg). cbn [done]. split; [reflexivity|].
      split; [|now intros H; elim H].
      intros _. split; [reflexivity|]. intros t Ht.
      unfold timeout_error, Error, ToString_opt. rewrite Ht.
      cbn [message]. split; [reflexivity|]. apply includes_suffix.
    + exists err. cbn [done]. split; [reflexivity|].
      split; [|reflexivity]. intros [= ->]. now elim ne.
  - exists err. cbn [done]. split; [reflexivity|].
    split; [discriminate | reflexivity].
Qed.

(** *** Requests *)

Lemma sendRequest_request cfg date method endpoint post o :
  In (HttpsRequest o) (sendRequest cfg date method endpoint post) ->
  exists hs canonical,
    request_headers post = Normal hs
    /\ canonicalRequest cfg date method endpoint hs post = Normal canonical
    /\ o = make_opts cfg method endpoint (auth cfg date canonical) hs.
Proof.
  unfold sendRequest.
  destruct (request_headers post) as [hs|] eqn:Hh;
    [|intros [H|[]]; discriminate].
  destruct (canonicalRequest cfg date method endpoint hs post)
    as [canonical|] eqn:Hc; [|intros [H|[]]; discriminate].
  intros [H|H].
  - injection H as H. exists hs, canonical. now rewrite <- H.
  - destruct H as [H|H]; [discriminate|].
    cbn [app] in H.
    destruct (post_truthy post); cbn [app In] in H; intuition discriminate.
Qed.

Lemma makeRequest_request cfg date method endpoint requestOpts o :
  In (HttpsRequest o) (makeRequest cfg date method endpoint requestOpts) ->
  exists post, In (HttpsRequest o) (sendRequest cfg date method endpoint post).
Proof.
  unfold makeRequest.
  destruct (_ && truthy _); [|now exists PostNull].
  destruct (_ && _); [intros H; eexists; exact H|].
  intros [H|H]; [discriminate|].
  destruct (encodeFormData _) as [err|enc]; [|eexists; exact H].
  destruct H as [H|[]]; discriminate.
Qed.

(** C10: whatever the configuration and the request, the request is
    issued with certificate rejection disabled exactly when [NODE_ENV] is
    the string [test]. *)
Theorem tls_relaxed_exactly_in_test cfg date method endpoint requestOpts o :
  In (HttpsRequest o) (makeRequest cfg date method endpoint requestOpts) ->
  (rejectUnauthorized o = false <-> NODE_ENV = Some "test").
Proof.
  intros H. apply makeRequest_request in H as [post H].
  apply sendRequest_request in H as (hs & canonical & _ & _ & ->).
  cbn [make_opts rejectUnauthorized]. unfold reject_unauthorized.
  destruct NODE_ENV as [e|]; [|split; discriminate].
  destruct (String.eqb_spec e "test") as [->|ne]; cbn [negb].
  - split; reflexivity.
  - split; [discriminate|]. intros [= ->]. now elim ne.
Qed.

Lemma content_type_part_string hs :
  (forall v, assoc "content-type" hs = Some v -> exists s, v = VStr s) ->
  content_type_part hs
  = match content_type_of hs with Some c => c | None => "" end.
Proof.
  intros Hstr. unfold content_type_part, content_type_of.
  destruct (assoc "content-type" hs) as [v|]; [|reflexivity].
  destruct (Hstr v eq_refl) as [s ->]. cbn [truthy ToString].
  destruct (String.eqb_spec s "") as [->|ne]; reflexivity.
Qed.

(** The bytes that precede the payload, part by part. *)
Lemma canonical_prefix cfg date method endpoint hs :
  (forall v, assoc "content-type" hs = Some v -> exists s, v = VStr s) ->
  ascii_bytes (method ++ "https://" ++ request_host cfg ++ endpoint ++ date
               ++ content_type_part hs)
  = spec_canonical method (request_host cfg) endpoint date
      (content_type_of hs) None.
Proof.
  intros Hstr. rewrite (content_type_part_string _ Hstr).
  unfold spec_canonical. rewrite !ascii_bytes_app, app_nil_r.
  now destruct (content_type_of hs).
Qed.

Lemma spec_canonical_payload method hostname path timestamp ct payload :
  spec_canonical method hostname path timestamp ct (Some payload)
  = (spec_canonical method hostname path timestamp ct None ++ payload)%list.
Proof.
  unfold spec_canonical. now rewrite app_nil_r, <- !app_assoc.
Qed.

(** C1: whenever the payload supplies headers whose content-type, if
    any, is a string, the bytes that are signed are the method,
    [https://] and the host, the path, the timestamp, the content-type
    when there is one and the payload bytes when there is a payload; and
    the request carries, unless the payload's own headers replace it, the
    [Authorization] header built from the key identifier, the base64 HMAC
    of those bytes under the decoded secret, and the same timestamp. *)
Theorem sendRequest_signs_canonical_request cfg date method endpoint post hs :
  request_headers post = Normal hs ->
  (forall v, assoc "content-type" hs = Some v -> exists s, v = VStr s) ->
  assoc "Authorization" hs = None ->
  let canonical :=
    spec_canonical method (request_host cfg) endpoint date
      (content_type_of hs) (spec_payload post) in
  canonicalRequest cfg date method endpoint hs post = Normal canonical
  /\ exists o rest,
      sendRequest cfg date method endpoint post = HttpsRequest o :: rest
      /\ assoc "Authorization" (opt_headers o)
         = Some (VStr (spec_authorization (apiId cfg)
                         (base64_encode
                            (hmac_sha256 (base64_decode (apiSecret cfg))
                               canonical))
                         date)).
Proof.
  intros Hh Hstr Hauth canonical.
  assert (Hc : canonicalRequest cfg date method endpoint hs post
               = Normal canonical).
  { unfold canonicalRequest, canonical.
    rewrite (canonical_prefix _ _ _ _ _ Hstr).
    unfold request_headers in Hh.
    destruct post as [|v|e]; cbn [post_truthy spec_payload] in *.
    - reflexivity.
    - destruct (truthy v); [|reflexivity].
      unfold payload_bytes. destruct (isAlert (PostForm v)); [|discriminate].
      cbn [stringify_post]. now rewrite spec_canonical_payload.
    - cbn [payload_bytes isAlert]. now rewrite spec_canonical_payload. }
  split; [exact Hc|].
  unfold sendRequest. rewrite Hh, Hc. cbn [app].
  eexists _, _. split; [reflexivity|].
  cbn [make_opts opt_headers].
  rewrite (assoc_objectAssign_absent _ _ _ Hauth).
  reflexivity.
Qed.

(** *** Payload dispatch *)

(** C7: a POST whose truthy payload is not an alert is handed to the
    encoder before anything else, and when the encoder reports an error
    the caller receives exactly that error: nothing is signed, no request
    is made, and no later event reaches the caller. *)
Theorem encoder_error_reaches_caller cfg date endpoint fd :
  truthy fd = true ->
  truthy (member fd "data") && truthy (member (member fd "data") "alertBody")
  = false ->
  (exists rest,
      makeRequest cfg date "POST" endpoint {| formData := fd |}
      = Encode fd :: rest)
  /\ (forall err evs,
        encodeFormData fd = inl err ->
        transaction cfg date "POST" endpoint {| formData := fd |} evs
        = [Encode fd; Callback (Failure err)]).
Proof.
  intros Ht Hn. unfold transaction, makeRequest. cbn [formData].
  change (("POST" =? "POST")%string) with true. cbn [andb].
  rewrite Ht, Hn. split.
  - eexists. reflexivity.
  - intros err evs He. rewrite He. reflexivity.
Qed.

(** *** Callbacks per transaction *)

(** C4: a GET whose response arrives and ends empty, with a socket reset
    reported on the request in between, calls the caller back twice: once
    with the timeout error and once with a success. *)
Theorem reset_then_end_calls_back_twice cfg date :
  callbacks
    (transaction cfg date "GET" "/channels/1" {| formData := VUndefined |}
       [EvResponse {| statusCode := 200 |};
        EvReqError {| message := "socket hang up"; code := Some "ECONNRESET";
                      apiError := None |};
        EvResEnd])
  = [Failure (timeout_error cfg); Success VNull].
Proof. reflexivity. Qed.

(** ** Further properties of the response handlers *)

Lemma run_app cfg cb (evs1 evs2 : list event) :
  forall st,
    run cfg cb st (evs1 ++ evs2)
    = let (st1, effs1) := run cfg cb st evs1 in
      let (st2, effs2) := run cfg cb st1 evs2 in
      (st2, (effs1 ++ effs2)%list).
Proof.
  induction evs1 as [|ev evs1 IH]; intros st.
  - cbn [app run]. now destruct (run cfg cb st evs2).
  - cbn [app run]. destruct (on_event cfg cb st ev) as [st0 effs0].
    rewrite IH. destruct (run cfg cb st0 evs1) as [st1 effs1].
    destruct (run cfg cb st1 evs2) as [st2 effs2].
    now rewrite app_assoc.
Qed.

(** The state in which a whole response leaves the handlers. *)
Lemma run_respond_state cfg cb (rs : response) (chunks : list string) :
  fst (run cfg cb None (respond rs chunks))
  = Some {| res := rs; result := concat_chunks chunks; done_flag := true |}.
Proof.
  unfold respond. cbn [app run on_event].
  rewrite run_data. cbn [res result done_flag append run on_event].
  unfold on_res_end. cbn [res result done_flag].
  destruct (body_outcome rs (concat_chunks chunks)); reflexivity.
Qed.

Lemma callbacks_app (a b : list effect) :
  callbacks (a ++ b) = (callbacks a ++ callbacks b)%list.
Proof.
  induction a as [|e a IH]; [reflexivity|].
  destruct e; cbn [app callbacks]; now rewrite IH.
Qed.

Lemma done_calls_back_once method endpoint (a : cb_args) :
  List.length (callbacks (done method endpoint a)) = 1%nat.
Proof.
  destruct a as [e|r b]; cbn [done]; [reflexivity|].
  now destruct (not_2xx (statusCode r)).
Qed.

(** X1: a non-empty body that [JSON.parse] rejects reaches the caller as
    the parser's own exception, whatever the status code. *)
Theorem parse_error_reaches_caller cfg method endpoint rs chunks e :
  concat_chunks chunks <> "" ->
  JSON_parse (concat_chunks chunks) = inl e ->
  snd (run cfg (done method endpoint) None (respond rs chunks))
  = [Callback (Failure e)].
Proof.
  intros ne Hp. rewrite run_respond. unfold body_outcome. cbn [truthy].
  apply String.eqb_neq in ne. now rewrite ne, Hp.
Qed.

(** X2: a parsed body that is not [null], has no truthy [data], and whose
    [errors] either is not a non-empty array or starts with an element that
    is not [null] and has no truthy [code], reaches the caller as a plain
    error carrying the raw text and no [apiError], whatever the status
    code. *)
Theorem unstructured_body_is_plain_error
    cfg method endpoint rs chunks parsed :
  concat_chunks chunks <> "" ->
  JSON_parse (concat_chunks chunks) = inr parsed ->
  nullish parsed = false ->
  truthy (member parsed "data") = false ->
  (forall first more,
      member parsed "errors" = VArr (first :: more) ->
      nullish first = false /\ truthy (member first "code") = false) ->
  snd (run cfg (done method endpoint) None (respond rs chunks))
  = [Callback (Failure (Error (concat_chunks chunks)))].
Proof.
  intros ne Hp Hn Hd He.
  rewrite run_respond, (body_outcome_parsed _ _ _ ne Hp).
  unfold classify. rewrite Hn, Hd.
  destruct (member parsed "errors") as [| | | | |[|x xs]|]; try reflexivity.
  destruct (He x xs eq_refl) as [Hx Hc]. now rewrite Hx, Hc.
Qed.

(** X4: when the body parses to [null] the ['end'] handler dies on
    [parsed.data] after it has set [done]: the caller is not called back,
    neither then nor by any later event of the response. *)
Theorem null_body_never_calls_back cfg method endpoint rs chunks parsed evs :
  concat_chunks chunks <> "" ->
  JSON_parse (concat_chunks chunks) = inr parsed ->
  nullish parsed = true ->
  forallb response_event evs = true ->
  snd (run cfg (done method endpoint) None (respond rs chunks ++ evs))
  = [Uncaught].
Proof.
  intros ne Hp Hn Hall. rewrite run_app.
  pose proof (run_respond_state cfg (done method endpoint) rs chunks) as Hst.
  pose proof (run_respond cfg (done method endpoint) rs chunks) as Heff.
  destruct (run cfg (done method endpoint) None (respond rs chunks))
    as [st1 effs1].
  cbn [fst snd] in Hst, Heff. subst st1.
  pose proof (run_after_done cfg (done method endpoint) evs
                {| res := rs; result := concat_chunks chunks;
                   done_flag := true |} eq_refl Hall) as Hsil.
  destruct (run cfg (done method endpoint) _ evs) as [st2 effs2].
  cbn [snd] in *. subst effs2. rewrite app_nil_r, Heff.
  rewrite (body_outcome_parsed _ _ _ ne Hp). unfold classify.
  now rewrite Hn.
Qed.

(** X5: an error of the response before its end reaches the caller as it
    is, and nothing that the response emits afterwards reaches the
    caller. *)
Theorem response_error_wins cfg method endpoint rs chunks err evs :
  forallb response_event evs = true ->
  snd (run cfg (done method endpoint) None
         (EvResponse rs :: map EvData chunks ++ EvResError err :: evs))
  = [Callback (Failure err)].
Proof.
  intros Hall. cbn [run on_event].
  rewrite run_data. cbn [res result done_flag run on_event].
  unfold on_res_error. cbn [done_flag].
  pose proof (run_after_done cfg (done method endpoint) evs
                (mark_done {| res := rs;
                              result := "" ++ concat_chunks chunks;
                              done_flag := false |}) eq_refl Hall) as Hsil.
  destruct (run cfg (done method endpoint) _ evs) as [st2 effs2].
  cbn [snd] in *. now subst effs2.
Qed.

(** X6: on the three-digit status codes the gate of [done] lets through
    exactly the codes from 200 to 299. *)
Theorem status_gate_on_three_digits (status : Z) :
  100 <= status <= 999 ->
  (not_2xx status = false <-> 200 <= status <= 299).
Proof.
  intros H. split; [|apply not_2xx_false].
  assert (all : forallb
                  (fun k => let s := 100 + Z.of_nat k in
                            not_2xx s || ((200 <=? s) && (s <=? 299)))
                  (seq 0 900) = true) by (vm_compute; reflexivity).
  rewrite forallb_forall in all.
  specialize (all (Z.to_nat (status - 100))).
  rewrite Z2Nat.id in all by lia.
  replace (100 + (status - 100)) with status in all by lia.
  intros Hg. cbv zeta in all. rewrite Hg in all. cbn [orb] in all.
  assert (Hin : In (Z.to_nat (status - 100)) (seq 0 900)) by (apply in_seq; lia).
  apply all in Hin. apply andb_true_iff in Hin as [H1 H2]. lia.
Qed.

(** X7: in every sequence of events each request-level error calls the
    caller back once, each response calls back at most once, and timeouts
    and data never call back: the number of outcomes lies between the
    number of request errors and that number plus the number of
    responses. *)
Theorem callbacks_are_bounded cfg method endpoint (evs : list event) :
  forall st,
    (count_events is_req_error evs
     <= List.length (callbacks (snd (run cfg (done method endpoint) st evs)))
     <= count_events is_req_error evs + count_events is_response evs
        + pending st)%nat.
Proof.
  unfold count_events.
  induction evs as [|ev evs IH]; intros st; [cbn; lia|].
  cbn [run].
  destruct ev as [|err|rs|chunk|err|]; cbn [on_event filter is_req_error
                                              is_response].
  - specialize (IH st).
    destruct (run cfg (done method endpoint) st evs) as [st2 effs2].
    cbn [snd app callbacks] in *. lia.
  - specialize (IH st).
    destruct (run cfg (done method endpoint) st evs) as [st2 effs2].
    cbn [snd] in *. rewrite callbacks_app, length_app.
    assert (List.length
              (callbacks (on_req_error cfg (done method endpoint) err))
            = 1%nat) as ->.
    { unfold on_req_error. destruct (is_reset err);
        apply done_calls_back_once. }
    cbn [List.length]. lia.
  - specialize (IH (Some {| res := rs; result := ""; done_flag := false |})).
    destruct (run cfg (done method endpoint) _ evs) as [st2 effs2].
    cbn [snd app callbacks List.length pending done_flag] in *. lia.
  - destruct st as [s|].
    + specialize (IH (Some (on_res_data chunk s))).
      destruct (run cfg (done method endpoint) _ evs) as [st2 effs2].
      cbn [snd app callbacks pending on_res_data done_flag] in *. lia.
    + specialize (IH None).
      destruct (run cfg (done method endpoint) None evs) as [st2 effs2].
      cbn [snd app callbacks pending] in *. lia.
  - destruct st as [s|].
    + unfold on_res_error. cbn [pending].
      destruct (done_flag s) eqn:Hd.
      * specialize (IH (Some s)).
        destruct (run cfg (done method endpoint) _ evs) as [st2 effs2].
        cbn [snd app callbacks pending] in *. rewrite Hd in IH. lia.
      * specialize (IH (Some (mark_done s))).
        destruct (run cfg (done method endpoint) _ evs) as [st2 effs2].
        cbn [snd app callbacks pending mark_done done_flag done
             List.length] in *. lia.
    + specialize (IH None).
      destruct (run cfg (done method endpoint) None evs) as [st2 effs2].
      cbn [snd app callbacks pending] in *. lia.
  - destruct st as [s|].
    + unfold on_res_end. cbn [pending].
      destruct (done_flag s) eqn:Hd.
      * specialize (IH (Some s)).
        destruct (run cfg (done method endpoint) _ evs) as [st2 effs2].
        cbn [snd app callbacks pending] in *. rewrite Hd in IH. lia.
      * specialize (IH (Some (mark_done s))).
        destruct (body_outcome (res s) (result s)) as [a|];
          destruct (run cfg (done method endpoint) _ evs) as [st2 effs2];
          cbn [snd pending mark_done done_flag] in *.
        -- rewrite callbacks_app, length_app, done_calls_back_once. lia.
        -- cbn [app callbacks]. lia.
    + specialize (IH None).
      destruct (run cfg (done method endpoint) None evs) as [st2 effs2].
      cbn [snd app callbacks pending] in *. lia.
Qed.

(** ** Further properties of the request *)

Lemma assoc_absent (k : string) (fields : list (string * value)) :
  ~ In k (map fst fields) -> assoc k fields = None.
Proof.
  induction fields as [|[k0 v0] fields IH]; intros Hn; [reflexivity|].
  cbn [assoc]. cbn [map fst In] in Hn.
  destruct (String.eqb_spec k k0) as [->|ne]; [elim Hn; now left|].
  apply IH. intros Hin. apply Hn. now right.
Qed.

(** A key of the source object takes the source's value. *)
Lemma assoc_objectAssign_present (k : string) (v : value)
    (source : list (string * value)) :
  forall target,
    NoDup (map fst source) ->
    assoc k source = Some v ->
    assoc k (objectAssign target source) = Some v.
Proof.
  induction source as [|[k0 v0] source IH]; intros target Hnd Hk;
    [discriminate|].
  cbn [map fst] in Hnd. apply NoDup_cons_iff in Hnd as [Hfresh Hnd].
  cbn [assoc] in Hk.
  change (objectAssign target ((k0, v0) :: source))
    with (objectAssign (set_key k0 v0 target) source).
  destruct (String.eqb_spec k k0) as [->|ne].
  - injection Hk as ->.
    rewrite (assoc_objectAssign_absent _ _ _ (assoc_absent _ _ Hfresh)).
    now rewrite assoc_set_key, String.eqb_refl.
  - now apply IH.
Qed.

(** The shape of what [sendRequest] does when it does not throw. *)
Lemma sendRequest_effects cfg date method endpoint post hs canonical :
  request_headers post = Normal hs ->
  canonicalRequest cfg date method endpoint hs post = Normal canonical ->
  sendRequest cfg date method endpoint post
  = (HttpsRequest (make_opts cfg method endpoint (auth cfg date canonical) hs)
     :: SetTimeout (or_zero (timeout cfg))
     :: (if post_truthy post then [Write (written_body post)] else [])
     ++ [End])%list.
Proof.
  intros Hh Hc. unfold sendRequest. now rewrite Hh, Hc.
Qed.

(** X10: the headers that come with the payload win over the two that
    [sendRequest] supplies: every header of the encoder's output is sent
    with the encoder's value, also under the keys [Accept] and
    [Authorization]. *)
Theorem payload_headers_take_precedence
    cfg date method endpoint enc o k v :
  NoDup (map fst (headers enc)) ->
  assoc k (headers enc) = Some v ->
  In (HttpsRequest o) (sendRequest cfg date method endpoint (PostEncoded enc)) ->
  assoc k (opt_headers o) = Some v.
Proof.
  intros Hnd Hk Hin.
  apply sendRequest_request in Hin as (hs & canonical & Hh & _ & ->).
  cbn in Hh. injection Hh as <-.
  cbn [make_opts opt_headers].
  now apply assoc_objectAssign_present.
Qed.

End Properties.

(** ** Properties of the call as Node runs it *)

Section RunProperties.

Context {P : Platform} {T : Transport}.

Lemma sendRequest_run_steps cfg date method endpoint post later hs canonical :
  request_headers post = Normal hs ->
  canonicalRequest cfg date method endpoint hs post = Normal canonical ->
  sendRequest_run cfg date method endpoint post later
  = request_steps (make_opts cfg method endpoint (auth cfg date canonical) hs)
      (or_zero (timeout cfg))
      (if post_truthy post then Some (written_body_later post later) else None).
Proof.
  intros Hh Hc. unfold sendRequest_run, request_steps. rewrite Hh, Hc.
  now destruct (post_truthy post).
Qed.

(** Where Node accepts the call and the payload is untouched, the run is
    the one that [sendRequest] describes. *)
Lemma sendRequest_run_agrees cfg date method endpoint post :
  (forall o, request_throws o = false) ->
  setTimeout_throws (or_zero (timeout cfg)) = false ->
  sendRequest_run cfg date method endpoint post post
  = sendRequest cfg date method endpoint post.
Proof.
  intros Hr Hs. unfold sendRequest_run, sendRequest.
  destruct (request_headers post) as [hs|]; [|reflexivity].
  destruct (canonicalRequest cfg date method endpoint hs post)
    as [canonical|]; [|reflexivity].
  rewrite Hr, Hs. reflexivity.
Qed.

Lemma request_steps_no_encode o ms body p :
  ~ In (Encode p) (request_steps o ms body).
Proof.
  unfold request_steps.
  destruct (request_throws o); [intros [H|[]]; discriminate|].
  destruct (setTimeout_throws ms); [intros [H|[H|[]]]; discriminate|].
  destruct body; cbn [app In]; intuition discriminate.
Qed.

(** The alert route, whatever Node does with the request. *)
Lemma alert_run cfg date endpoint fields inner body later :
  assoc "data" fields = Some (VObj inner) ->
  assoc "alertBody" inner = Some body ->
  truthy body = true ->
  makeRequest_run cfg date "POST" endpoint {| formData := VObj fields |} later
  = request_steps
      (alert_request cfg date endpoint (JSON_stringify (VObj fields)))
      (or_zero (timeout cfg))
      (Some (utf8_bytes (JSON_stringify later))).
Proof.
  intros Hd Ha Ht.
  assert (Halert : isAlert (PostForm (VObj fields)) = true).
  { cbn [isAlert truthy member]. rewrite Hd. cbn [truthy member].
    now rewrite Ha, Ht. }
  unfold makeRequest_run. cbn [formData truthy member andb].
  rewrite Hd. cbn [truthy member]. rewrite Ha, Ht.
  change (("POST" =? "POST")%string) with true. cbn [andb].
  assert (Hh : request_headers (PostForm (VObj fields))
               = Normal [("content-type", VStr "application/json");
                         ("content-length",
                          VNum (byteLength (JSON_stringify (VObj fields))))]).
  { unfold request_headers. now rewrite Halert. }
  assert (Hc : canonicalRequest cfg date "POST" endpoint
                 [("content-type", VStr "application/json");
                  ("content-length",
                   VNum (byteLength (JSON_stringify (VObj fields))))]
                 (PostForm (VObj fields))
               = Normal (spec_canonical "POST" (request_host cfg) endpoint
                           date (Some "application/json")
                           (Some (utf8_bytes (JSON_stringify (VObj fields)))))).
  { unfold canonicalRequest, payload_bytes. rewrite Halert.
    cbn [post_truthy truthy stringify_post].
    rewrite spec_canonical_payload. do 2 f_equal.
    unfold spec_canonical. now rewrite !ascii_bytes_app, app_nil_r. }
  rewrite (sendRequest_run_steps _ _ _ _ _ _ _ _ Hh Hc).
  unfold written_body_later. rewrite Halert.
  cbn [post_truthy truthy stringify_post]. reflexivity.
Qed.

(** C6, amended: a POST whose payload has a truthy [alertBody] under
    [data] never reaches the encoder.  Where Node accepts the request and
    its timeout, the request carries content-type [application/json] and a
    content-length equal to the byte length of the payload's JSON text at
    the call, the UTF-8 bytes of that text end the signed canonical
    request, and the body written is the UTF-8 JSON of the payload as it is
    after the suspension: the same bytes when the caller has left the
    payload as it was. *)
Theorem truthy_alert_bypasses_encoder
    cfg date endpoint fields inner body later :
  assoc "data" fields = Some (VObj inner) ->
  assoc "alertBody" inner = Some body ->
  truthy body = true ->
  let json := JSON_stringify (VObj fields) in
  let o := alert_request cfg date endpoint json in
  let ms := or_zero (timeout cfg) in
  let effs :=
    makeRequest_run cfg date "POST" endpoint {| formData := VObj fields |}
      later in
  (forall p, ~ In (Encode p) effs)
  /\ (request_throws o = false ->
      setTimeout_throws ms = false ->
      effs = [HttpsRequest o; SetTimeout ms;
              Write (utf8_bytes (JSON_stringify later)); End]
      /\ (later = VObj fields ->
          effs = [HttpsRequest o; SetTimeout ms; Write (utf8_bytes json);
                  End])).
Proof.
  intros Hd Ha Ht json o ms effs.
  assert (He : effs
               = request_steps o ms (Some (utf8_bytes (JSON_stringify later))))
    by (apply (alert_run _ _ _ _ _ _ _ Hd Ha Ht)).
  split.
  - intros p. rewrite He. apply request_steps_no_encode.
  - intros Hr Hs. rewrite He. unfold request_steps. rewrite Hr, Hs.
    split; [reflexivity|]. now intros ->.
Qed.

(** X8: a request whose method is not POST, or that brings no truthy
    [formData], never consults the encoder and has no body.  Where Node
    accepts it, it is one request whose only headers are [Accept] and the
    [Authorization] computed over the method, [https://] and host, the path
    and the timestamp, followed by its timeout and its end; where
    [https.request] throws nothing is requested, and where [req.setTimeout]
    throws the request is neither written nor ended. *)
Theorem bodyless_request cfg date method endpoint requestOpts later :
  (method =? "POST")%string && truthy (formData requestOpts) = false ->
  makeRequest_run cfg date method endpoint requestOpts later
  = request_steps
      {| opt_method := method;
         opt_host := request_host cfg;
         opt_port := or_undefined (port cfg);
         rejectUnauthorized := reject_unauthorized;
         opt_path := endpoint;
         opt_headers :=
           own_headers
             (spec_authorization (apiId cfg)
                (signature cfg
                   (spec_canonical method (request_host cfg) endpoint date
                      None None))
                date) |}
      (or_zero (timeout cfg)) None.
Proof.
  intros H. unfold makeRequest_run. rewrite H.
  assert (Hc : canonicalRequest cfg date method endpoint [] PostNull
               = Normal (spec_canonical method (request_host cfg) endpoint
                           date None None)).
  { unfold canonicalRequest. cbn [post_truthy content_type_part assoc].
    rewrite append_empty_r. unfold spec_canonical. cbn [app].
    now rewrite !ascii_bytes_app, app_nil_r. }
  now rewrite (sendRequest_run_steps _ _ _ _ PostNull PostNull [] _ eq_refl Hc).
Qed.

(** X9: when the encoder succeeds on a POST that is not an alert, the
    encoder call is followed, where Node accepts the request, by one
    request under the encoder's headers, its timeout, the encoder's buffer
    written unchanged, and the end; the [Authorization] that [sendRequest]
    supplies signs the canonical request that ends with that same buffer.
    Where Node throws, nothing is written. *)
Theorem encoded_payload_is_signed_and_sent cfg date endpoint fd enc later :
  truthy fd = true ->
  truthy (member fd "data") && truthy (member (member fd "data") "alertBody")
  = false ->
  encodeFormData fd = inr enc ->
  (forall v, assoc "content-type" (headers enc) = Some v ->
             exists s, v = VStr s) ->
  let authorization :=
    spec_authorization (apiId cfg)
      (signature cfg
         (spec_canonical "POST" (request_host cfg) endpoint date
            (content_type_of (headers enc)) (Some (buffer enc))))
      date in
  let o := make_opts cfg "POST" endpoint authorization (headers enc) in
  makeRequest_run cfg date "POST" endpoint {| formData := fd |} later
  = Encode fd :: request_steps o (or_zero (timeout cfg)) (Some (buffer enc))
  /\ (assoc "Authorization" (headers enc) = None ->
      assoc "Authorization" (opt_headers o) = Some (VStr authorization)).
Proof.
  intros Ht Hn He Hstr authorization o.
  assert (Hc : canonicalRequest cfg date "POST" endpoint (headers enc)
                 (PostEncoded enc)
               = Normal (spec_canonical "POST" (request_host cfg) endpoint
                           date (content_type_of (headers enc))
                           (Some (buffer enc)))).
  { unfold canonicalRequest. cbn [post_truthy payload_bytes isAlert].
    now rewrite (canonical_prefix _ _ _ _ _ Hstr), spec_canonical_payload. }
  split.
  - unfold makeRequest_run. cbn [formData].
    change (("POST" =? "POST")%string) with true. cbn [andb].
    rewrite Ht, Hn, He.
    now rewrite (sendRequest_run_steps cfg date "POST" endpoint
                   (PostEncoded enc) (PostEncoded enc) (headers enc) _
                   eq_refl Hc).
  - intros Hauth. unfold o. cbn [make_opts opt_headers].
    now rewrite (assoc_objectAssign_absent _ _ _ Hauth).
Qed.



End RunProperties.

(** ** The client on examples *)

#[local] Existing Instance Demo.node.

Lemma sendRequest_signs_canonical_request_witness :
  request_headers (PostEncoded Demo.form) = Normal (headers Demo.form)
  /\ assoc "Authorization" (headers Demo.form) = None
  /\ canonicalRequest Demo.cfg Demo.date "POST" "/channels/1/articles"
       (headers Demo.form) (PostEncoded Demo.form)
     = Normal (spec_canonical "POST" "news-api.apple.com"
                 "/channels/1/articles" Demo.date
                 (Some "multipart/form-data; boundary=boundary")
                 (Some (buffer Demo.form))).
Proof.
  split; [reflexivity|]. split; [reflexivity|].
  apply (sendRequest_signs_canonical_request Demo.cfg Demo.date "POST"
           "/channels/1/articles" (PostEncoded Demo.form) (headers Demo.form)).
  - reflexivity.
  - intros v H. vm_compute in H. injection H as <-. eexists. reflexivity.
  - reflexivity.
Defined.

Lemma non_2xx_is_failure_witness :
  not_2xx 404 = true
  /\ exists err,
      snd (run Demo.cfg (done "GET" "/channels/1") None
             (respond {| statusCode := 404 |} [Demo.body_data_id]))
      = [Callback (Failure err)]
      /\ message err = "GET /channels/1 code 404".
Proof.
  split; [reflexivity|].
  destruct (non_2xx_is_failure Demo.cfg "GET" "/channels/1"
              {| statusCode := 404 |} [Demo.body_data_id])
    as (err & Hrun & Hok & _).
  - reflexivity.
  - vm_compute. discriminate.
  - exists err. split; [exact Hrun|].
    destruct (Hok {| statusCode := 404 |} (VObj [("id", VStr "123")]) eq_refl)
      as (Hm & _).
    exact Hm.
Defined.

(** C2 as worded fails: a 404 with the body [{}] reaches the caller as
    the body's own error, whose message [{}] names neither the method nor
    the path nor the status. *)
Lemma empty_object_404_hides_request :
  callbacks (snd (run Demo.cfg (done "GET" "/channels/1") None
                    (respond {| statusCode := 404 |} [Demo.body_empty_object])))
  = [Failure (Error "{}")]
  /\ includes "{}" "GET" = false
  /\ ~ status_gate_claim.
Proof.
  split; [reflexivity|]. split; [reflexivity|].
  intros claim.
  destruct (claim Demo.node Demo.cfg "GET" "/channels/1"
              {| statusCode := 404 |} [Demo.body_empty_object]
              (Failure (Error "{}")) eq_refl eq_refl)
    as (err & Herr & Hm & _).
  injection Herr as <-. vm_compute in Hm. discriminate.
Qed.

Lemma truthy_data_2xx_is_success_witness :
  200 <= 201 <= 299
  /\ snd (run Demo.cfg (done "GET" "/channels/1") None
            (respond {| statusCode := 201 |} [Demo.body_data_id]))
     = [Callback (Success (VObj [("id", VStr "123")]))].
Proof.
  split; [lia|].
  apply (truthy_data_2xx_is_success Demo.cfg "GET" "/channels/1"
           {| statusCode := 201 |} [Demo.body_data_id]
           [("data", VObj [("id", VStr "123")])]).
  - cbn [statusCode]. lia.
  - vm_compute. discriminate.
  - reflexivity.
  - reflexivity.
  - reflexivity.
Defined.

(** C3 as worded fails: the body [{"data":0}] under status 200 reaches
    the caller as an error carrying the raw text. *)
Lemma data_zero_is_failure :
  callbacks (snd (run Demo.cfg (done "GET" "/channels/1") None
                    (respond {| statusCode := 200 |} [Demo.body_data_zero])))
  = [Failure (Error Demo.body_data_zero)]
  /\ ~ data_field_claim.
Proof.
  split; [reflexivity|].
  intros claim.
  assert (ok : 200 <= statusCode {| statusCode := 200 |} <= 299)
    by (cbn [statusCode]; lia).
  assert (ne : concat_chunks [Demo.body_data_zero] <> "")
    by (vm_compute; discriminate).
  specialize (claim Demo.node Demo.cfg "GET" "/channels/1"
                {| statusCode := 200 |} [Demo.body_data_zero]
                [("data", VNum 0)] (VNum 0) ok ne eq_refl eq_refl).
  vm_compute in claim. discriminate.
Qed.

Lemma truthy_code_is_structured_error_witness :
  exists err,
    snd (run Demo.cfg (done "GET" "/channels/1") None
           (respond {| statusCode := 400 |} [Demo.body_errors]))
    = [Callback (Failure err)]
    /\ message err = Demo.body_errors
    /\ option_map (fun detail => member detail "code") (apiError err)
       = Some (VStr "X").
Proof.
  destruct (truthy_code_is_structured_error Demo.cfg "GET" "/channels/1"
              {| statusCode := 400 |} [Demo.body_errors]
              [("errors",
                VArr [VObj [("code", VStr "X"); ("message", VStr "m")]])]
              [("code", VStr "X"); ("message", VStr "m")] [] (VStr "X"))
    as (err & Hrun & Hm & _ & Hc).
  - vm_compute. discriminate.
  - reflexivity.
  - reflexivity.
  - reflexivity.
  - reflexivity.
  - reflexivity.
  - exists err. split; [exact Hrun|]. split; [exact Hm | exact Hc].
Defined.

(** C5 as worded fails: in [{"errors":[{"code":""}]}] the first element
    carries a [code], yet the caller's error has no [apiError]. *)
Lemma blank_code_is_unstructured :
  callbacks (snd (run Demo.cfg (done "GET" "/channels/1") None
                    (respond {| statusCode := 400 |}
                       [Demo.body_errors_blank_code])))
  = [Failure (Error Demo.body_errors_blank_code)]
  /\ ~ structured_error_claim.
Proof.
  split; [reflexivity|].
  intros claim.
  assert (ne : concat_chunks [Demo.body_errors_blank_code] <> "")
    by (vm_compute; discriminate).
  specialize (claim Demo.node Demo.cfg "GET" "/channels/1"
                {| statusCode := 400 |} [Demo.body_errors_blank_code]
                [("errors", VArr [VObj [("code", VStr "")]])]
                [("code", VStr "")] [] (VStr "") ne eq_refl eq_refl eq_refl
                eq_refl).
  vm_compute in claim. discriminate.
Qed.

Lemma truthy_alert_bypasses_encoder_witness :
  truthy (VStr "hi") = true
  /\ makeRequest_run (P := Strict.node) (T := Strict.transport) Demo.cfg
       Demo.date "POST" "/channels/1/notifications"
       {| formData := Demo.alert_payload |} Demo.alert_payload
     = [HttpsRequest
          (alert_request (P := Strict.node) Demo.cfg Demo.date
             "/channels/1/notifications" Demo.alert_json);
        SetTimeout 5000; Write (utf8_bytes Demo.alert_json); End].
Proof.
  split; [reflexivity|].
  destruct (truthy_alert_bypasses_encoder (P := Strict.node)
              (T := Strict.transport) Demo.cfg Demo.date
              "/channels/1/notifications"
              [("data", VObj [("alertBody", VStr "hi")])]
              [("alertBody", VStr "hi")] (VStr "hi") Demo.alert_payload
              eq_refl eq_refl eq_refl)
    as (_ & Hsent).
  destruct (Hsent eq_refl eq_refl) as (_ & Hsame).
  exact (Hsame eq_refl).
Defined.

(** C6 as worded fails: the payload [{data: {alertBody: ""}}] has the
    field, yet it is handed to the encoder; a payload whose [alertBody]
    the caller changes from [hi] to [bye] while the call is suspended is
    signed and measured as the first text and written as the second; and
    under a request that Node rejects nothing is sent at all. *)
Lemma alert_claim_fails :
  In (Encode Demo.blank_alert_payload)
     (makeRequest_run (P := Strict.node) (T := Strict.transport) Demo.cfg
        Demo.date "POST" "/channels/1/notifications"
        {| formData := Demo.blank_alert_payload |} Demo.blank_alert_payload)
  /\ (makeRequest_run (P := Strict.node) (T := Strict.transport) Demo.cfg
        Demo.date "POST" "/channels/1/notifications"
        {| formData := Demo.alert_payload |} Strict.changed_payload
      = [HttpsRequest
           (alert_request (P := Strict.node) Demo.cfg Demo.date
              "/channels/1/notifications" Demo.alert_json);
         SetTimeout 5000; Write (utf8_bytes Strict.changed_json); End]
      /\ utf8_bytes Strict.changed_json <> utf8_bytes Demo.alert_json)
  /\ makeRequest_run (P := Strict.node) (T := Strict.transport) Demo.cfg
       Demo.date "POST" "/channels/1/my notifications"
       {| formData := Demo.alert_payload |} Demo.alert_payload
     = [Rejected]
  /\ ~ alert_claim.
Proof.
  split; [left; reflexivity|].
  split; [split; [reflexivity | vm_compute; discriminate]|].
  split; [reflexivity|].
  intros claim.
  destruct (claim Strict.node Strict.transport Demo.cfg Demo.date
              "/channels/1/notifications"
              [("data", VObj [("alertBody", VStr "")])]
              [("alertBody", VStr "")] (VStr "") Demo.blank_alert_payload
              eq_refl eq_refl)
    as [never _].
  apply (never Demo.blank_alert_payload). left. reflexivity.
Qed.

Lemma encoder_error_reaches_caller_witness :
  encodeFormData (VObj []) = inl Demo.encoder_error
  /\ transaction Demo.cfg Demo.date "POST" "/channels/1/articles"
       {| formData := VObj [] |}
       [EvResponse {| statusCode := 200 |}; EvResEnd]
     = [Encode (VObj []); Callback (Failure Demo.encoder_error)].
Proof.
  split; [reflexivity|].
  apply (encoder_error_reaches_caller Demo.cfg Demo.date
           "/channels/1/articles" (VObj [])); reflexivity.
Defined.

Lemma empty_body_2xx_is_success_witness :
  200 <= 204 <= 299
  /\ snd (run Demo.cfg (done "DELETE" "/articles/1") None
            (respond {| statusCode := 204 |} []))
     = [Callback (Success VNull)].
Proof.
  split; [lia|].
  apply (empty_body_2xx_is_success Demo.cfg "DELETE" "/articles/1"
           {| statusCode := 204 |} []).
  - cbn [statusCode]. lia.
  - reflexivity.
Defined.

Lemma socket_error_classification_witness :
  (exists delivered,
      snd (on_event Demo.cfg (done "GET" "/channels/1") None
             (EvReqError Demo.reset))
      = [Callback (Failure delivered)]
      /\ message delivered = "Apple News API endpoint timeout after 5000 ms")
  /\ (exists delivered,
        snd (on_event Demo.cfg (done "GET" "/channels/1") None
               (EvReqError Demo.refused))
        = [Callback (Failure delivered)]
        /\ delivered = Demo.refused).
Proof.
  split.
  - destruct (socket_error_classification Demo.cfg "GET" "/channels/1" None
                Demo.reset)
      as (delivered & Hrun & Hreset & _).
    exists delivered. split; [exact Hrun|].
    destruct (Hreset eq_refl) as (_ & Hm).
    destruct (Hm 5000 eq_refl) as (Hmsg & _). exact Hmsg.
  - destruct (socket_error_classification Demo.cfg "GET" "/channels/1" None
                Demo.refused)
      as (delivered & Hrun & _ & Hother).
    exists delivered. split; [exact Hrun|].
    apply Hother. discriminate.
Defined.

Lemma tls_relaxed_exactly_in_test_witness :
  exists o,
    In (HttpsRequest o)
       (makeRequest (P := Demo.test_node) Demo.cfg Demo.date "GET"
          "/channels/1" {| formData := VUndefined |})
    /\ rejectUnauthorized o = false.
Proof.
  eexists. split; [left; reflexivity|].
  apply (tls_relaxed_exactly_in_test (P := Demo.test_node) Demo.cfg Demo.date
           "GET" "/channels/1" {| formData := VUndefined |}).
  - left. reflexivity.
  - reflexivity.
Defined.

(** ** The further properties on examples *)

Lemma parse_error_reaches_caller_witness :
  JSON_parse "oops" = inl Demo.syntax_error
  /\ snd (run Demo.cfg (done "GET" "/channels/1") None
            (respond {| statusCode := 200 |} ["oo"; "ps"]))
     = [Callback (Failure Demo.syntax_error)].
Proof.
  split; [reflexivity|].
  apply (parse_error_reaches_caller Demo.cfg "GET" "/channels/1"
           {| statusCode := 200 |} ["oo"; "ps"] Demo.syntax_error).
  - vm_compute. discriminate.
  - reflexivity.
Defined.

Lemma unstructured_body_is_plain_error_witness :
  JSON_parse "{}" = inr (VObj [])
  /\ snd (run Demo.cfg (done "GET" "/channels/1") None
            (respond {| statusCode := 200 |} ["{}"]))
     = [Callback (Failure (Error "{}"))].
Proof.
  split; [reflexivity|].
  apply (unstructured_body_is_plain_error Demo.cfg "GET" "/channels/1"
           {| statusCode := 200 |} ["{}"] (VObj [])).
  - vm_compute. discriminate.
  - reflexivity.
  - reflexivity.
  - reflexivity.
  - intros first more H. vm_compute in H. discriminate.
Defined.

Lemma null_body_never_calls_back_witness :
  JSON_parse (Platform := Wire.node) Wire.body_null = inr VNull
  /\ callbacks
       (snd (run (P := Wire.node) Demo.cfg (done "GET" "/channels/1") None
               (respond {| statusCode := 200 |} [Wire.body_null]
                ++ [EvResError Demo.reset; EvResEnd])))
     = [].
Proof.
  split; [reflexivity|].
  rewrite (null_body_never_calls_back (P := Wire.node) Demo.cfg "GET"
             "/channels/1" {| statusCode := 200 |} [Wire.body_null] VNull
             [EvResError Demo.reset; EvResEnd]).
  - reflexivity.
  - vm_compute. discriminate.
  - reflexivity.
  - reflexivity.
  - reflexivity.
Defined.

Lemma response_error_wins_witness :
  forallb response_event [EvData "}"; EvResEnd] = true
  /\ snd (run Demo.cfg (done "GET" "/channels/1") None
            (EvResponse {| statusCode := 200 |}
             :: map EvData ["{"] ++ EvResError Demo.reset
             :: [EvData "}"; EvResEnd]))
     = [Callback (Failure Demo.reset)].
Proof.
  split; [reflexivity|].
  apply (response_error_wins Demo.cfg "GET" "/channels/1"
           {| statusCode := 200 |} ["{"] Demo.reset [EvData "}"; EvResEnd]).
  reflexivity.
Defined.

Lemma status_gate_on_three_digits_witness :
  100 <= 304 <= 999 /\ (not_2xx 304 = false <-> 200 <= 304 <= 299).
Proof.
  split; [lia|]. apply (status_gate_on_three_digits 304). lia.
Defined.

Lemma payload_headers_take_precedence_witness :
  exists o,
    In (HttpsRequest o)
       (sendRequest (P := Wire.node) Demo.cfg Demo.date "POST"
          "/channels/1/articles" (PostEncoded Wire.form))
    /\ assoc "Accept" (opt_headers o) = Some (VStr "*/*").
Proof.
  eexists. split; [left; reflexivity|].
  apply (payload_headers_take_precedence (P := Wire.node) Demo.cfg Demo.date
           "POST" "/channels/1/articles" Wire.form).
  - repeat constructor; cbn; intuition discriminate.
  - reflexivity.
  - left. reflexivity.
Defined.

Lemma bodyless_request_witness :
  ("GET" =? "POST")%string && truthy Demo.alert_payload = false
  /\ (exists o,
        makeRequest_run (P := Strict.node) (T := Strict.transport) Demo.cfg
          Demo.date "GET" "/channels/1" {| formData := Demo.alert_payload |}
          Demo.alert_payload
        = [HttpsRequest o; SetTimeout 5000; End])
  /\ (exists o,
        makeRequest_run (P := Strict.node) (T := Strict.transport)
          Strict.hasty_cfg Demo.date "GET" "/channels/1"
          {| formData := VUndefined |} VUndefined
        = [HttpsRequest o; Rejected]).
Proof.
  split; [reflexivity|]. split.
  - rewrite (bodyless_request (P := Strict.node) (T := Strict.transport)
               Demo.cfg Demo.date "GET" "/channels/1"
               {| formData := Demo.alert_payload |} Demo.alert_payload
               eq_refl).
    eexists. reflexivity.
  - rewrite (bodyless_request (P := Strict.node) (T := Strict.transport)
               Strict.hasty_cfg Demo.date "GET" "/channels/1"
               {| formData := VUndefined |} VUndefined eq_refl).
    eexists. reflexivity.
Defined.

Lemma encoded_payload_is_signed_and_sent_witness :
  encodeFormData (Platform := Strict.node) Demo.blank_alert_payload
  = inr Demo.form
  /\ exists o,
      makeRequest_run (P := Strict.node) (T := Strict.transport) Demo.cfg
        Demo.date "POST" "/channels/1/articles"
        {| formData := Demo.blank_alert_payload |} Demo.blank_alert_payload
      = [Encode Demo.blank_alert_payload; HttpsRequest o; SetTimeout 5000;
         Write (buffer Demo.form); End].
Proof.
  split; [reflexivity|].
  destruct (encoded_payload_is_signed_and_sent (P := Strict.node)
              (T := Strict.transport) Demo.cfg Demo.date
              "/channels/1/articles" Demo.blank_alert_payload Demo.form
              Demo.blank_alert_payload)
    as (Heffs & _).
  - reflexivity.
  - reflexivity.
  - reflexivity.
  - intros v H. vm_compute in H. injection H as <-. eexists. reflexivity.
  - rewrite Heffs. eexists. reflexivity.
Defined.

